(** * Embedding service ([Backend/embedding_service/app.py])

    A shallow embedding of the one-file FastAPI service: the request schema
    [TextRequest], the route handler [embed], the framework step that
    validates a body before the handler runs and turns the handler's result
    or exception into an HTTP response, and the module's startup sequence.

    The sentence-embedding model is an external collaborator.  It appears
    here as the parameters [SentenceTransformer] (the constructor, which can
    raise) and [encode] (the method, which can raise and, being a method on
    a Python object, is given the object and returns it).  What the library
    promises about them is never built into the definitions: each theorem
    names the clause of the library's contract it relies on as a
    hypothesis. *)

From Stdlib Require Import List String Bool ZArith QArith Lia.
From Stdlib Require Import Reals Qreals Lra.
Import ListNotations.

Close Scope Q_scope.
Open Scope string_scope.
Open Scope list_scope.

(** ** JSON values, as [json.loads] hands them to the framework *)

(** The floats that are not numbers of finite size: the parser reads
    [1e400] as [inf], and accepts [NaN], [Infinity] and [-Infinity]. *)
Inductive special : Type :=
| PosInf
| NegInf
| NaN.

(** [JNum] is an integer of any size or a finite float; [JNonFinite] is one
    of the other floats. *)
#[warnings="-register-all"] Inductive json : Type :=
| JNull
| JBool (b : bool)
| JNum (q : Q)
| JNonFinite (x : special)
| JStr (s : string)
| JArr (items : list json)
| JObj (members : list (string * json)).

(** A parsed object is a Python [dict]: when a key is repeated in the text,
    the binding that comes last is the one kept. *)
Fixpoint dict_get (k : string) (members : list (string * json)) : option json :=
  match members with
  | [] => None
  | (k', v) :: rest =>
      match dict_get k rest with
      | Some v' => Some v'
      | None => if String.eqb k k' then Some v else None
      end
  end.

Definition has_key (k : string) (members : list (string * json)) : bool :=
  existsb (fun kv => String.eqb k (fst kv)) members.

(** Whether a parsed value holds a float that JSON cannot write.  In an
    object only the bindings that are kept count. *)
Fixpoint nonfinite (j : json) : bool :=
  match j with
  | JNonFinite _ => true
  | JArr items => existsb nonfinite items
  | JObj members =>
      (fix kept (ms : list (string * json)) : bool :=
         match ms with
         | [] => false
         | (k, v) :: rest => (negb (has_key k rest) && nonfinite v) || kept rest
         end) members
  | _ => false
  end.

(** The body of a request as the framework sees it: none, bytes that are
    not JSON (a syntax error at [pos]), a parsed value, or bytes on which
    reading fails in another way (text that cannot be decoded, an integer
    too long to convert, nesting too deep). *)
Inductive Body : Type :=
| NoBody
| InvalidJson (pos : nat)
| JsonBody (j : json)
| Unreadable.

(** The body [{"texts": [...]}] a client sends for the sentences [ts]. *)
Definition request_body (ts : list string) : Body :=
  JsonBody (JObj [("texts", JArr (map JStr ts))]).

(** ** The request schema

    [class TextRequest(BaseModel): texts: list[str]]

    The annotation is taken at its word, as the schema library validates
    parsed JSON in its default mode: [texts] must be a JSON array and each
    item a JSON string; nothing else is converted to a list or to a string.
    All offending items are reported, each with its path. *)

Record TextRequest : Type := { texts : list string }.

Inductive loc_item : Type :=
| LocKey (k : string)
| LocIndex (i : nat).

(** One entry of the error report: its kind, the path of the offending
    part, and the offending value itself. *)
Record ErrorDetail : Type := {
  err_type : string;
  err_loc : list loc_item;
  err_input : json
}.

(** Items of [texts]: every item that is not a string is reported with its
    index; the strings are collected in order. *)
Fixpoint validate_items (i : nat) (items : list json)
  : list ErrorDetail * list string :=
  match items with
  | [] => ([], [])
  | j :: rest =>
      let '(errs, strs) := validate_items (S i) rest in
      match j with
      | JStr s => (errs, s :: strs)
      | _ =>
          ({| err_type := "string_type";
              err_loc := [LocKey "body"; LocKey "texts"; LocIndex i];
              err_input := j |} :: errs,
           strs)
      end
  end.

Definition validate_texts (v : json) : list ErrorDetail + list string :=
  match v with
  | JArr items =>
      match validate_items 0 items with
      | ([], strs) => inr strs
      | (errs, _) => inl errs
      end
  | _ => inl [{| err_type := "list_type";
                 err_loc := [LocKey "body"; LocKey "texts"];
                 err_input := v |}]
  end.

(** The model has the single field [texts]; keys it does not declare are
    dropped (the base class's default). *)
Definition validate_TextRequest (j : json) : list ErrorDetail + TextRequest :=
  match j with
  | JObj members =>
      match dict_get "texts" members with
      | None => inl [{| err_type := "missing";
                        err_loc := [LocKey "body"; LocKey "texts"];
                        err_input := j |}]
      | Some v =>
          match validate_texts v with
          | inl errs => inl errs
          | inr strs => inr {| texts := strs |}
          end
      end
  | JNull => inl [{| err_type := "missing"; err_loc := [LocKey "body"];
                     err_input := JNull |}]
  | _ => inl [{| err_type := "model_attributes_type";
                 err_loc := [LocKey "body"];
                 err_input := j |}]
  end.

(** Why the framework does not enter the handler: the body could not be
    read ([HTTPException] with status 400), or it was read and fails
    validation ([RequestValidationError] with its errors). *)
Inductive Refusal : Type :=
| HTTPException400
| RequestValidationError (errors : list ErrorDetail).

(** Reading and validation of the body, before the handler. *)
Definition validate_body (b : Body) : Refusal + TextRequest :=
  match b with
  | NoBody =>
      inl (RequestValidationError
             [{| err_type := "missing"; err_loc := [LocKey "body"];
                 err_input := JNull |}])
  | InvalidJson pos =>
      inl (RequestValidationError
             [{| err_type := "json_invalid";
                 err_loc := [LocKey "body"; LocIndex pos];
                 err_input := JObj [] |}])
  | JsonBody j =>
      match validate_TextRequest j with
      | inl errs => inl (RequestValidationError errs)
      | inr req => inr req
      end
  | Unreadable => inl HTTPException400
  end.

(** Whether the error report can be written as JSON: no offending value in
    it holds a non-finite float. *)
Definition echoes_finite (errs : list ErrorDetail) : bool :=
  forallb (fun e => negb (nonfinite (err_input e))) errs.

(** The sentences of the requests that pass validation, request by
    request, in the order of the requests. *)
Fixpoint accepted (requests : list Body) : list (list string) :=
  match requests with
  | [] => []
  | b :: rest =>
      match validate_body b with
      | inl _ => accepted rest
      | inr req => texts req :: accepted rest
      end
  end.

(** ** Vectors

    The numbers of a response are finite binary floating-point values,
    hence rationals.  The service does no arithmetic on them. *)

Definition vector : Type := list Q.

(** The array returned by [encode]: its rows. *)
Definition ndarray : Type := list vector.

(** [embeddings.tolist()]: the rows as nested lists; every number keeps
    its value. *)
Definition tolist (a : ndarray) : list (list Q) := a.

Definition sumsq (v : vector) : Q :=
  fold_right (fun x acc => x * x + acc)%Q 0%Q v.

(** [| ||v|| - 1 | <= tol], written on squares: for [0 <= tol <= 1] it is
    [(1 - tol)^2 <= ||v||^2 <= (1 + tol)^2]. *)
Definition unit_norm (tol : Q) (v : vector) : Prop :=
  ((1 - tol) * (1 - tol) <= sumsq v /\ sumsq v <= (1 + tol) * (1 + tol))%Q.

(** ** The application object *)

Record CORSMiddleware : Type := {
  allow_origins : list string;
  allow_credentials : bool;
  allow_methods : list string;
  allow_headers : list string
}.

Record Route : Type := {
  path : string;
  methods : list string
}.

Record FastAPI : Type := {
  user_middleware : list CORSMiddleware;
  routes : list Route
}.

(** [FastAPI()]: the application starts with the routes of its own
    documentation. *)
Definition FastAPI_new : FastAPI :=
  {| user_middleware := [];
     routes := [ {| path := "/openapi.json"; methods := ["GET"; "HEAD"] |};
                 {| path := "/docs"; methods := ["GET"; "HEAD"] |};
                 {| path := "/docs/oauth2-redirect"; methods := ["GET"; "HEAD"] |};
                 {| path := "/redoc"; methods := ["GET"; "HEAD"] |} ] |}.

Definition add_middleware (a : FastAPI) (m : CORSMiddleware) : FastAPI :=
  {| user_middleware := m :: user_middleware a; routes := routes a |}.

Definition post (a : FastAPI) (p : string) : FastAPI :=
  {| user_middleware := user_middleware a;
     routes := routes a ++ [ {| path := p; methods := ["POST"] |} ] |}.

(** ** What the process does to the outside world *)

Inductive event : Type :=
| EvLoad (name : string)
| EvEncode (sentences : list string) (normalize_embeddings : bool)
| EvListen (host : string) (port : Z).

Definition is_load (e : event) : bool :=
  match e with EvLoad _ => true | _ => false end.

Definition is_encode (e : event) : bool :=
  match e with EvEncode _ _ => true | _ => false end.

Definition is_listen (e : event) : bool :=
  match e with EvListen _ _ => true | _ => false end.

(** ** Responses *)

Record EmbedResponse : Type := { embeddings : list (list Q) }.

Inductive Response : Type :=
| Ok (content : EmbedResponse)
| BadRequest
| UnprocessableEntity (detail : list ErrorDetail)
| InternalServerError.

Definition status_code (r : Response) : Z :=
  match r with
  | Ok _ => 200
  | BadRequest => 400
  | UnprocessableEntity _ => 422
  | InternalServerError => 500
  end.

Definition embeddings_of (r : Response) : option (list (list Q)) :=
  match r with
  | Ok c => Some (embeddings c)
  | _ => None
  end.


Definition is_5xx (r : Response) : bool :=
  ((500 <=? status_code r) && (status_code r <? 600))%Z.

(** The framework's answer to a refusal.  A body that could not be read
    gets status 400 with a fixed message and no location.  A validation
    failure gets status 422 with the error report; when the report cannot
    be written as JSON, writing it raises and the answer is the
    server-error response. *)
Definition exception_handler (r : Refusal) : Response :=
  match r with
  | HTTPException400 => BadRequest
  | RequestValidationError errs =>
      if echoes_finite errs then UnprocessableEntity errs
      else InternalServerError
  end.

(** ** The state of the process *)

Definition model_name : string := "all-MiniLM-L6-v2".

Definition cors : CORSMiddleware :=
  {| allow_origins := ["*"];
     allow_credentials := true;
     allow_methods := ["*"];
     allow_headers := ["*"] |}.

(** Module-level bindings; [model_obj] is the state of the Python object
    behind the global [model]. *)
Record Globals (model_obj : Type) : Type := {
  model : model_obj;
  app : FastAPI
}.

Arguments Build_Globals {model_obj} _ _.
Arguments model {model_obj} _.
Arguments app {model_obj} _.

Record World (model_obj : Type) : Type := {
  globals : Globals model_obj;
  trace : list event
}.

Arguments Build_World {model_obj} _ _.
Arguments globals {model_obj} _.
Arguments trace {model_obj} _.

(** ** A small concrete model

    Two unit vectors of 384 numbers, chosen by the parity of the length of
    the sentence, returned as they are when normalisation is requested and
    doubled when it is not; and collaborators that fail.  They are used to
    run the definitions on concrete requests. *)

Module Sample.

Definition e1 : vector := 1%Q :: repeat 0%Q 383.
Definition e2 : vector := 0%Q :: 1%Q :: repeat 0%Q 382.

Definition vec (s : string) : vector :=
  if Nat.even (String.length s) then e1 else e2.

(** The same directions before normalisation, of length 2. *)
Definition raw (s : string) : vector := map (Qmult 2) (vec s).

Definition load (name : string) : string + unit := inr tt.

Definition encode (m : unit) (sentences : list string) (normalize_embeddings : bool)
  : unit * (string + ndarray) :=
  (m, inr (map (if normalize_embeddings then vec else raw) sentences)).

Definition load_fails (name : string) : string + unit :=
  inl "OSError".

Definition encode_raises (m : unit) (sentences : list string)
  (normalize_embeddings : bool) : unit * (string + ndarray) :=
  (m, inl "RuntimeError").

Definition tol : Q := 1 # 1000000.

(** Bodies of the wrong shape, and one with keys the schema does not
    declare. *)
Definition not_a_list : Body :=
  JsonBody (JObj [("texts", JStr "not a list")]).

Definition mixed : Body :=
  JsonBody (JObj [("texts", JArr [JStr "a"; JNum 1%Q; JStr "b"; JNull])]).

(** [{"texts": [1e400]}] *)
Definition overflow : Body :=
  JsonBody (JObj [("texts", JArr [JNonFinite PosInf])]).

Definition extra : list (string * json) :=
  [("lang", JStr "fr"); ("texts", JArr [JStr "a"; JStr "bb"]); ("top_k", JNum 3%Q)].

Definition world : World unit :=
  {| globals := {| model := tt;
                   app := post (add_middleware FastAPI_new cors) "/embed" |};
     trace := [EvLoad model_name; EvListen "0.0.0.0" 8001] |}.

End Sample.

(** ** The service, over the external model *)

Section Service.

(** The state of the Python object behind the global [model], and the
    exceptions the library can raise. *)
Variable model_obj : Type.
Variable exn : Type.

Abbreviation Globals := (Globals model_obj).
Abbreviation World := (World model_obj).

(** [SentenceTransformer(name)]: loads the artifact or raises. *)
Variable SentenceTransformer : string -> exn + model_obj.

(** [m.encode(sentences, normalize_embeddings=b)]: the object after the
    call, and the array returned or the exception raised. *)
Variable encode : model_obj -> list string -> bool -> model_obj * (exn + ndarray).

(** Handler code runs over the world and either returns or raises. *)
Definition M (A : Type) : Type := World -> (exn + A) * World.

Definition ret {A : Type} (a : A) : M A := fun w => (inr a, w).

Definition bind {A B : Type} (c : M A) (k : A -> M B) : M B :=
  fun w =>
    match c w with
    | (inl e, w') => (inl e, w')
    | (inr a, w') => k a w'
    end.

Notation "x <- c ;; k" := (bind c (fun x => k))
  (at level 100, c at next level, right associativity).

(** The method call [model.encode(...)] on the global object. *)
Definition model_encode (sentences : list string) (normalize_embeddings : bool)
  : M ndarray :=
  fun w =>
    let '(m', r) := encode (model (globals w)) sentences normalize_embeddings in
    (r, {| globals := {| model := m'; app := app (globals w) |};
           trace := trace w ++ [EvEncode sentences normalize_embeddings] |}).

(** [def embed(req: TextRequest)] *)
Definition embed (req : TextRequest) : M EmbedResponse :=
  embeddings <- model_encode (texts req) true ;;
  ret {| embeddings := tolist embeddings |}.

(** [@app.post("/embed")]: the body is read and validated against the
    schema before the handler is entered; a handler that raises gives the
    server-error response. *)
Definition post_embed (b : Body) (w : World) : Response * World :=
  match validate_body b with
  | inl refusal => (exception_handler refusal, w)
  | inr req =>
      match embed req w with
      | (inl _, w') => (InternalServerError, w')
      | (inr content, w') => (Ok content, w')
      end
  end.

(** *** Startup *)

(** The module body, top to bottom: the model is built first, and an
    exception there ends the execution of the module. *)
Definition module_init : exn + Globals :=
  match SentenceTransformer model_name with
  | inl e => inl e
  | inr m =>
      inr {| model := m;
             app := post (add_middleware FastAPI_new cors) "/embed" |}
  end.

(** [uvicorn.run(app, ...)]: the requests, in the order in which their
    handlers run. *)
Fixpoint serve (w : World) (requests : list Body) : list Response * World :=
  match requests with
  | [] => ([], w)
  | b :: rest =>
      let '(r, w') := post_embed b w in
      let '(rs, w'') := serve w' rest in
      (r :: rs, w'')
  end.

Record Run : Type := {
  run_trace : list event;
  run_responses : list Response;
  run_globals : option Globals
}.

(** The world in which the server starts to listen. *)
Definition listening (g : Globals) : World :=
  {| globals := g;
     trace := [EvLoad model_name; EvListen "0.0.0.0" 8001] |}.

(** The whole process, run as a script: the module body, then
    [uvicorn.run(app, host="0.0.0.0", port=8001)]. *)
Definition main (requests : list Body) : Run :=
  match module_init with
  | inl _ =>
      {| run_trace := [EvLoad model_name];
         run_responses := [];
         run_globals := None |}
  | inr g =>
      let '(rs, w) := serve (listening g) requests in
      {| run_trace := trace w; run_responses := rs; run_globals := Some (globals w) |}
  end.

(** *** The library's contract, clause by clause *)

(** The method does not change the object it is called on. *)
Definition encode_readonly : Prop :=
  forall m ts b, fst (encode m ts b) = m.

(** With normalisation requested, the array has one row per sentence, and
    row [i] is the embedding [f] of sentence [i]. *)
Definition encode_rowwise (m : model_obj) (f : string -> vector) : Prop :=
  forall ts, snd (encode m ts true) = inr (map f ts).

(** With normalisation requested, every row returned has unit length. *)
Definition encode_normalized (m : model_obj) (tol : Q) : Prop :=
  forall ts a, snd (encode m ts true) = inr a -> Forall (unit_norm tol) a.

(** A body of the expected shape: an object whose key [texts] is bound to
    a list of strings. *)
Definition well_shaped (b : Body) (ts : list string) : Prop :=
  exists members,
    b = JsonBody (JObj members) /\
    dict_get "texts" members = Some (JArr (map JStr ts)).




(** *** Vectors *)

Lemma sumsq_nonneg (v : vector) : (0 <= Q2R (sumsq v))%R.
Proof.
  induction v as [|x v IH]; simpl.
  - unfold Q2R; simpl. lra.
  - rewrite Q2R_plus, Q2R_mult. nra.
Qed.

(** [unit_norm] says what it is meant to say: the Euclidean length, a real
    number, is within [tol] of 1. *)
Lemma unit_norm_sqrt (tol : Q) (v : vector) :
  (0 <= tol)%Q -> (tol <= 1)%Q ->
  unit_norm tol v <-> (Rabs (sqrt (Q2R (sumsq v)) - 1) <= Q2R tol)%R.
Proof.
  intros T0 T1. apply Qle_Rle in T0, T1.
  replace (Q2R 0) with 0%R in T0 by (unfold Q2R; simpl; lra).
  replace (Q2R 1) with 1%R in T1 by (unfold Q2R; simpl; lra).
  pose proof (sumsq_nonneg v) as S0.
  assert (Q1 : Q2R 1 = 1%R) by (unfold Q2R; simpl; lra).
  unfold unit_norm. set (S := sumsq v) in *. set (t := Q2R tol) in *.
  assert (L : ((1 - tol) * (1 - tol) <= S)%Q <-> ((1 - t) * (1 - t) <= Q2R S)%R).
  { split; intros H.
    - apply Qle_Rle in H. rewrite Q2R_mult, Q2R_minus, Q1 in H. exact H.
    - apply Rle_Qle. rewrite Q2R_mult, Q2R_minus, Q1. exact H. }
  assert (U : (S <= (1 + tol) * (1 + tol))%Q <-> (Q2R S <= (1 + t) * (1 + t))%R).
  { split; intros H.
    - apply Qle_Rle in H. rewrite Q2R_mult, Q2R_plus, Q1 in H. exact H.
    - apply Rle_Qle. rewrite Q2R_mult, Q2R_plus, Q1. exact H. }
  rewrite L, U. clear L U.
  pose proof (sqrt_pos (Q2R S)) as P.
  pose proof (sqrt_sqrt (Q2R S) S0) as E.
  set (r := sqrt (Q2R S)) in *. rewrite <- E.
  split.
  - intros [A B]. apply Rabs_le. split; nra.
  - intros H. unfold Rabs in H. destruct (Rcase_abs (r - 1)); split; nra.
Qed.

(** *** Validation *)

Lemma validate_items_strs (i : nat) (ts : list string) :
  validate_items i (map JStr ts) = ([], ts).
Proof.
  revert i; induction ts as [|t ts IH]; intros i; simpl.
  - reflexivity.
  - rewrite IH. reflexivity.
Qed.

Lemma validate_items_nil_inv (items : list json) :
  forall i strs, validate_items i items = ([], strs) -> items = map JStr strs.
Proof.
  induction items as [|j rest IH]; intros i strs H; simpl in H.
  - inversion H. reflexivity.
  - destruct (validate_items (S i) rest) as [errs ss] eqn:E.
    destruct j; try discriminate.
    inversion H; subst. simpl. f_equal. eapply IH. exact E.
Qed.



Lemma validate_texts_ok (v : json) (strs : list string) :
  validate_texts v = inr strs <-> v = JArr (map JStr strs).
Proof.
  split.
  - destruct v; simpl; try discriminate.
    destruct (validate_items 0 items) as [errs ss] eqn:E.
    destruct errs; [|discriminate].
    intros H; inversion H; subst. f_equal.
    eapply validate_items_nil_inv. exact E.
  - intros ->. simpl. rewrite validate_items_strs. reflexivity.
Qed.

Lemma validate_TextRequest_ok (j : json) (req : TextRequest) :
  validate_TextRequest j = inr req <->
  exists members, j = JObj members /\
    dict_get "texts" members = Some (JArr (map JStr (texts req))).
Proof.
  split.
  - destruct j; simpl; try discriminate.
    destruct (dict_get "texts" members) as [v|] eqn:G; [|discriminate].
    destruct (validate_texts v) as [errs|strs] eqn:V; [discriminate|].
    intros H; inversion H; subst. simpl.
    apply validate_texts_ok in V. subst v.
    exists members. split; [reflexivity | exact G].
  - intros (members & -> & G). simpl. rewrite G.
    destruct (validate_texts (JArr (map JStr (texts req)))) as [errs|strs] eqn:V.
    + simpl in V. rewrite validate_items_strs in V. discriminate.
    + apply validate_texts_ok in V. f_equal. destruct req as [ts]. simpl in *.
      f_equal. inversion V as [H]. clear V G.
      revert ts H. induction strs as [|s strs IH]; intros [|t ts] H;
        simpl in H; try discriminate; [reflexivity|].
      inversion H; subst. f_equal. apply IH. assumption.
Qed.

Lemma validate_body_ok (b : Body) (req : TextRequest) :
  validate_body b = inr req <-> well_shaped b (texts req).
Proof.
  split.
  - destruct b as [| pos | j |]; simpl; try discriminate.
    destruct (validate_TextRequest j) as [errs | r] eqn:V; [discriminate|].
    intros H; inversion H; subst r.
    apply validate_TextRequest_ok in V. destruct V as (members & -> & G).
    exists members. split; [reflexivity | exact G].
  - intros (members & -> & G). cbn [validate_body].
    assert (V : validate_TextRequest (JObj members) = inr req).
    { apply validate_TextRequest_ok. exists members. split; [reflexivity | exact G]. }
    rewrite V. reflexivity.
Qed.




Lemma exception_handler_no_embeddings (r : Refusal) :
  embeddings_of (exception_handler r) = None.
Proof.
  destruct r as [| errs]; simpl; [reflexivity|].
  destruct (echoes_finite errs); reflexivity.
Qed.

(** *** One request *)

Lemma post_embed_valid (b : Body) (req : TextRequest) (w : World) :
  validate_body b = inr req ->
  post_embed b w =
  (match snd (encode (model (globals w)) (texts req) true) with
   | inl _ => InternalServerError
   | inr a => Ok {| embeddings := a |}
   end,
   {| globals := {| model := fst (encode (model (globals w)) (texts req) true);
                    app := app (globals w) |};
      trace := trace w ++ [EvEncode (texts req) true] |}).
Proof.
  intros V. unfold post_embed, embed, bind, model_encode, ret, tolist.
  rewrite V.
  destruct (encode (model (globals w)) (texts req) true) as [m' [e | a]];
    reflexivity.
Qed.

Lemma post_embed_invalid (b : Body) (r : Refusal) (w : World) :
  validate_body b = inl r ->
  post_embed b w = (exception_handler r, w).
Proof. intros V. unfold post_embed. rewrite V. reflexivity. Qed.

Lemma validate_request_body (ts : list string) :
  validate_body (request_body ts) = inr {| texts := ts |}.
Proof.
  apply validate_body_ok. exists [("texts", JArr (map JStr ts))].
  split; reflexivity.
Qed.

Lemma well_shaped_valid (b : Body) (ts : list string) :
  well_shaped b ts -> validate_body b = inr {| texts := ts |}.
Proof. intros H. apply validate_body_ok. exact H. Qed.

(** The response depends on the world only through the model object. *)
Lemma post_embed_response_model (b : Body) (w w' : World) :
  model (globals w) = model (globals w') ->
  fst (post_embed b w) = fst (post_embed b w').
Proof.
  intros E. destruct (validate_body b) as [errs | req] eqn:V.
  - rewrite !(post_embed_invalid b errs) by exact V. reflexivity.
  - rewrite !(post_embed_valid b req) by exact V. simpl. rewrite E. reflexivity.
Qed.

Lemma globals_eta (g : Globals) :
  {| model := model g; app := app g |} = g.
Proof. destruct g; reflexivity. Qed.

Lemma post_embed_globals (b : Body) (w : World) :
  encode_readonly -> globals (snd (post_embed b w)) = globals w.
Proof.
  intros RO. destruct (validate_body b) as [errs | req] eqn:V.
  - rewrite (post_embed_invalid b errs) by exact V. reflexivity.
  - rewrite (post_embed_valid b req) by exact V. simpl.
    rewrite RO. apply globals_eta.
Qed.

Lemma post_embed_trace (b : Body) (w : World) :
  trace (snd (post_embed b w)) = trace w \/
  exists ts, trace (snd (post_embed b w)) = trace w ++ [EvEncode ts true].
Proof.
  destruct (validate_body b) as [errs | req] eqn:V.
  - left. rewrite (post_embed_invalid b errs) by exact V. reflexivity.
  - right. exists (texts req).
    rewrite (post_embed_valid b req) by exact V. reflexivity.
Qed.

(** *** A sequence of requests *)

Lemma serve_cons (w : World) (b : Body) (rest : list Body) :
  serve w (b :: rest) =
  (fst (post_embed b w) :: fst (serve (snd (post_embed b w)) rest),
   snd (serve (snd (post_embed b w)) rest)).
Proof.
  simpl. destruct (post_embed b w) as [r w']. simpl.
  destruct (serve w' rest) as [rs w'']. reflexivity.
Qed.

Lemma serve_globals (requests : list Body) :
  encode_readonly ->
  forall w, globals (snd (serve w requests)) = globals w.
Proof.
  intros RO. induction requests as [|b rest IH]; intros w.
  - reflexivity.
  - rewrite serve_cons. simpl. rewrite IH. apply post_embed_globals. exact RO.
Qed.

Lemma serve_trace (requests : list Body) :
  forall w, exists evs,
    trace (snd (serve w requests)) = trace w ++ evs /\
    forallb is_encode evs = true.
Proof.
  induction requests as [|b rest IH]; intros w.
  - exists []. split; [symmetry; apply app_nil_r | reflexivity].
  - rewrite serve_cons. simpl.
    destruct (IH (snd (post_embed b w))) as (evs & E & F).
    destruct (post_embed_trace b w) as [T | [ts T]]; rewrite T in E.
    + exists evs. split; assumption.
    + exists (EvEncode ts true :: evs). split.
      * rewrite E, <- app_assoc. reflexivity.
      * simpl. exact F.
Qed.

Lemma serve_responses (requests : list Body) :
  encode_readonly ->
  forall w r, In r (fst (serve w requests)) ->
    exists b w', globals w' = globals w /\ r = fst (post_embed b w').
Proof.
  intros RO. induction requests as [|b rest IH]; intros w r H.
  - destruct H.
  - rewrite serve_cons in H. simpl in H. destruct H as [H | H].
    + exists b, w. split; [reflexivity | symmetry; exact H].
    + destruct (IH _ _ H) as (b' & w' & G & E).
      exists b', w'. split; [| exact E].
      rewrite G. apply post_embed_globals. exact RO.
Qed.

Lemma response_history_independent (b : Body) (w : World) (history : list Body) :
  encode_readonly ->
  fst (post_embed b (snd (serve w history))) = fst (post_embed b w).
Proof.
  intros RO. apply post_embed_response_model.
  rewrite (serve_globals history RO). reflexivity.
Qed.

(** *** The operation [embed] *)

(** C1. A request whose body carries the list of strings [ts] is answered
    with a list of embeddings that has the length of [ts] and whose entry
    [i] is the embedding of [ts[i]]; for the empty list the answer is the
    empty list.  The model is taken to keep the library's promise of one
    row per sentence, in order ([encode_rowwise]). *)
Theorem embed_length_and_order
  (f : string -> vector) (w : World) (b : Body) (ts : list string) :
  encode_rowwise (model (globals w)) f ->
  well_shaped b ts ->
  exists es,
    fst (post_embed b w) = Ok {| embeddings := es |} /\
    List.length es = List.length ts /\
    (forall i, nth_error es i = option_map f (nth_error ts i)) /\
    (ts = [] -> es = []).
Proof.
  intros R S. exists (map f ts).
  rewrite (post_embed_valid b {| texts := ts |}) by (apply well_shaped_valid; exact S).
  simpl. rewrite R. repeat split.
  - apply length_map.
  - intros i. apply nth_error_map.
  - intros ->. reflexivity.
Qed.

(** C2. Every vector of a response has unit Euclidean length, up to the
    tolerance [tol], because the handler asks the model for normalised
    embeddings: the only fact used about the model is what it returns when
    normalisation is requested ([encode_normalized]). *)
Theorem embed_unit_norm
  (tol : Q) (w : World) (b : Body) (es : list (list Q)) :
  encode_normalized (model (globals w)) tol ->
  embeddings_of (fst (post_embed b w)) = Some es ->
  Forall (unit_norm tol) es.
Proof.
  intros N H. destruct (validate_body b) as [errs | req] eqn:V.
  - rewrite (post_embed_invalid b errs) in H by exact V. cbn [fst] in H.
    rewrite exception_handler_no_embeddings in H. discriminate.
  - rewrite (post_embed_valid b req) in H by exact V. simpl in H.
    destruct (snd (encode (model (globals w)) (texts req) true)) as [e | a] eqn:E;
      [discriminate|].
    simpl in H. inversion H; subst. eapply N. exact E.
Qed.

(** C3. Within one request no sentence influences the vector of another:
    entry [i] of the answer for [ts] is the single vector of the answer for
    [[ts[i]]], and the answer for [xs ++ ys] is the answer for [xs]
    followed by the answer for [ys].  The equality is exact, for a model
    that encodes row by row ([encode_rowwise]). *)
Theorem embed_itemwise (f : string -> vector) (w : World) :
  encode_rowwise (model (globals w)) f ->
  (forall ts i s, nth_error ts i = Some s ->
     exists es v,
       embeddings_of (fst (post_embed (request_body ts) w)) = Some es /\
       embeddings_of (fst (post_embed (request_body [s]) w)) = Some [v] /\
       nth_error es i = Some v) /\
  (forall xs ys, exists es1 es2,
     embeddings_of (fst (post_embed (request_body xs) w)) = Some es1 /\
     embeddings_of (fst (post_embed (request_body ys) w)) = Some es2 /\
     embeddings_of (fst (post_embed (request_body (xs ++ ys)) w))
       = Some (es1 ++ es2)).
Proof.
  intros R.
  assert (A : forall ts,
             embeddings_of (fst (post_embed (request_body ts) w)) = Some (map f ts)).
  { intros ts.
    rewrite (post_embed_valid _ {| texts := ts |}) by apply validate_request_body.
    simpl. rewrite R. reflexivity. }
  split.
  - intros ts i s H. exists (map f ts), (f s). repeat split.
    + apply A.
    + apply (A [s]).
    + rewrite nth_error_map, H. reflexivity.
  - intros xs ys. exists (map f xs), (map f ys). repeat split.
    + apply A.
    + apply A.
    + rewrite A, map_app. reflexivity.
Qed.


(** C5. Two calls with the same string get the same answer: the second
    call, made after the first and after any other requests, returns what
    the first returned.  The model object is taken not to be changed by
    [encode] ([encode_readonly]); the handler itself keeps no state. *)
Theorem embed_deterministic (s : string) (w : World) (between : list Body) :
  encode_readonly ->
  fst (post_embed (request_body [s])
         (snd (serve (snd (post_embed (request_body [s]) w)) between)))
  = fst (post_embed (request_body [s]) w) /\
  exists r, fst (serve w [request_body [s]; request_body [s]]) = [r; r].
Proof.
  intros RO. split.
  - rewrite (response_history_independent _ _ between RO).
    apply post_embed_response_model.
    rewrite (post_embed_globals _ w RO). reflexivity.
  - exists (fst (post_embed (request_body [s]) w)).
    rewrite !serve_cons. simpl. f_equal. f_equal.
    apply post_embed_response_model.
    rewrite (post_embed_globals _ w RO). reflexivity.
Qed.

(** C6. When the call to the model raises, the answer is the status-500
    response and carries no embeddings; a response carries either the
    whole array the model returned, with status 200, or no embedding at
    all, with another status; and the module's globals are as they were
    (the model object being left alone by [encode], [encode_readonly]). *)
Theorem model_failure_all_or_nothing (b : Body) (w : World) :
  encode_readonly ->
  (forall req e,
     validate_body b = inr req ->
     snd (encode (model (globals w)) (texts req) true) = inl e ->
     fst (post_embed b w) = InternalServerError /\
     is_5xx (fst (post_embed b w)) = true /\
     embeddings_of (fst (post_embed b w)) = None) /\
  (forall es,
     embeddings_of (fst (post_embed b w)) = Some es ->
     status_code (fst (post_embed b w)) = 200%Z /\
     exists req, validate_body b = inr req /\
       snd (encode (model (globals w)) (texts req) true) = inr es) /\
  (embeddings_of (fst (post_embed b w)) = None ->
     status_code (fst (post_embed b w)) <> 200%Z) /\
  globals (snd (post_embed b w)) = globals w.
Proof.
  intros RO. split; [| split; [| split]].
  - intros req e V E. rewrite (post_embed_valid b req w V). simpl.
    rewrite E. repeat split.
  - intros es H. destruct (validate_body b) as [errs | req] eqn:V.
    + rewrite (post_embed_invalid b errs w V) in H. cbn [fst] in H.
      rewrite exception_handler_no_embeddings in H. discriminate.
    + rewrite (post_embed_valid b req w V) in *. simpl in *.
      destruct (snd (encode (model (globals w)) (texts req) true)) as [e | a] eqn:E;
        [discriminate|].
      simpl in H. inversion H; subst. split; [reflexivity|].
      exists req. split; [reflexivity | exact E].
  - destruct (fst (post_embed b w)); simpl; intros H; discriminate.
  - apply post_embed_globals. exact RO.
Qed.

(** *** The process *)

Lemma serve_length (requests : list Body) :
  forall w, List.length (fst (serve w requests)) = List.length requests.
Proof.
  induction requests as [|b rest IH]; intros w.
  - reflexivity.
  - rewrite serve_cons. simpl. rewrite IH. reflexivity.
Qed.

Lemma main_load_failed (requests : list Body) (e : exn) :
  SentenceTransformer model_name = inl e ->
  main requests =
  {| run_trace := [EvLoad model_name]; run_responses := []; run_globals := None |}.
Proof. intros L. unfold main, module_init. rewrite L. reflexivity. Qed.

Lemma main_loaded (requests : list Body) (m : model_obj) :
  SentenceTransformer model_name = inr m ->
  let w0 := listening {| model := m;
                         app := post (add_middleware FastAPI_new cors) "/embed" |} in
  main requests =
  {| run_trace := trace (snd (serve w0 requests));
     run_responses := fst (serve w0 requests);
     run_globals := Some (globals (snd (serve w0 requests))) |}.
Proof.
  intros L w0. unfold main, module_init. rewrite L. fold w0.
  destruct (serve w0 requests) as [rs w]. reflexivity.
Qed.

Lemma encode_events_not_load (evs : list event) :
  forallb is_encode evs = true ->
  forallb (fun e => negb (is_load e)) evs = true /\ filter is_load evs = [].
Proof.
  induction evs as [|e evs IH]; simpl; intros H.
  - split; reflexivity.
  - apply andb_true_iff in H. destruct H as [He H].
    destruct (IH H) as [A B]. destruct e; try discriminate. simpl.
    split; assumption.
Qed.

(** C7. In every run the model is built exactly once, and that is the
    first thing the process does, before it listens and before any request
    reaches the model.  When building the model raises, the process never
    listens and answers no request; a process that listens or answers has
    a loaded model, and then it answers every request. *)
Theorem model_loaded_once_before_serving (requests : list Body) :
  List.length (filter is_load (run_trace (main requests))) = 1 /\
  (exists rest,
     run_trace (main requests) = EvLoad model_name :: rest /\
     forallb (fun e => negb (is_load e)) rest = true) /\
  (forall e, SentenceTransformer model_name = inl e ->
     run_trace (main requests) = [EvLoad model_name] /\
     run_responses (main requests) = [] /\
     run_globals (main requests) = None) /\
  (forall m, SentenceTransformer model_name = inr m ->
     exists evs,
       run_trace (main requests)
         = EvLoad model_name :: EvListen "0.0.0.0" 8001 :: evs /\
       forallb is_encode evs = true /\
       List.length (run_responses (main requests)) = List.length requests) /\
  (run_responses (main requests) <> [] \/
   existsb is_listen (run_trace (main requests)) = true ->
   exists m, SentenceTransformer model_name = inr m).
Proof.
  destruct (SentenceTransformer model_name) as [e | m] eqn:L.
  - rewrite (main_load_failed requests e L). simpl.
    split; [reflexivity|]. split; [exists []; split; reflexivity|].
    split; [intros _ _; repeat split|].
    split; [intros m' H; discriminate|].
    intros [H | H]; [exfalso; apply H; reflexivity | discriminate].
  - rewrite (main_loaded requests m L). simpl.
    destruct (serve_trace requests
                (listening {| model := m;
                              app := post (add_middleware FastAPI_new cors) "/embed" |}))
      as (evs & T & F).
    rewrite T. simpl.
    destruct (encode_events_not_load evs F) as [NL FL].
    split; [rewrite FL; reflexivity|].
    split; [eexists; split; [reflexivity | simpl; exact NL]|].
    split; [intros e H; discriminate|].
    split.
    + intros m' _. exists evs. split; [reflexivity|]. split; [exact F|].
      apply serve_length.
    + intros _. exists m. reflexivity.
Qed.

(** C8. All vectors of all responses of a run have one and the same
    length, the dimension of the model; and the request for
    [["hello world"]] is answered with exactly one vector, of 384 numbers
    and of unit length.  The number 384 and the unit length are facts about
    the artifact that the module loads by its name [model_name]; they enter
    as hypotheses on the object that this load returns. *)
Theorem embed_fixed_dimension
  (f : string -> vector) (tol : Q) (m0 : model_obj) :
  SentenceTransformer model_name = inr m0 ->
  encode_readonly ->
  encode_rowwise m0 f ->
  (forall s, List.length (f s) = 384) ->
  (forall s, unit_norm tol (f s)) ->
  (exists v,
     run_responses (main [request_body ["hello world"]])
       = [Ok {| embeddings := [v] |}] /\
     List.length v = 384 /\ unit_norm tol v) /\
  (forall requests r es v,
     In r (run_responses (main requests)) ->
     embeddings_of r = Some es -> In v es -> List.length v = 384).
Proof.
  intros L RO R D N. split.
  - exists (f "hello world"). rewrite (main_loaded _ m0 L).
    cbn [run_responses]. rewrite serve_cons. cbn [fst snd serve].
    rewrite (post_embed_valid _ {| texts := ["hello world"] |})
      by apply validate_request_body.
    cbn [fst snd texts globals model listening]. rewrite R.
    cbn [map]. repeat split; [apply D | apply N | apply N].
  - intros requests r es v I E V. rewrite (main_loaded _ m0 L) in I.
    simpl in I. apply (serve_responses requests RO) in I.
    destruct I as (b & w' & G & ->).
    destruct (validate_body b) as [errs | req] eqn:Vb.
    + rewrite (post_embed_invalid b errs w' Vb) in E. cbn [fst] in E.
      rewrite exception_handler_no_embeddings in E. discriminate.
    + rewrite (post_embed_valid b req w' Vb) in E. simpl in E.
      rewrite G in E. simpl in E. rewrite R in E. simpl in E.
      inversion E; subst. apply in_map_iff in V.
      destruct V as (s & <- & _). apply D.
Qed.

(** C9. Handling a request changes nothing but the answer: the module's
    globals (the model object and the application) are after the request,
    and after any sequence of requests, what they were before, and the only
    thing the handler does to the outside is at most one call of [encode]
    with normalisation requested; nothing is stored or logged.  The model
    object is taken to be left alone by [encode] ([encode_readonly]). *)
Theorem embed_no_side_effects (b : Body) (w : World) (requests : list Body) :
  encode_readonly ->
  globals (snd (post_embed b w)) = globals w /\
  (trace (snd (post_embed b w)) = trace w \/
   exists ts, trace (snd (post_embed b w)) = trace w ++ [EvEncode ts true]) /\
  globals (snd (serve w requests)) = globals w.
Proof.
  intros RO. split; [apply post_embed_globals; exact RO|].
  split; [apply post_embed_trace|].
  apply serve_globals. exact RO.
Qed.

(** C10. A body whose key [texts] is bound to a list of strings is
    accepted whatever other keys it has: the answer, and the world after
    it, are those of the body with the key [texts] alone; it is not a
    validation error; and when the model returns an array for these
    strings, the answer is that array. *)
Theorem extra_keys_ignored
  (members : list (string * json)) (ts : list string) (w : World) :
  dict_get "texts" members = Some (JArr (map JStr ts)) ->
  post_embed (JsonBody (JObj members)) w = post_embed (request_body ts) w /\
  (forall errs,
     fst (post_embed (JsonBody (JObj members)) w) <> UnprocessableEntity errs) /\
  (forall a, snd (encode (model (globals w)) ts true) = inr a ->
     fst (post_embed (JsonBody (JObj members)) w) = Ok {| embeddings := a |}).
Proof.
  intros G.
  assert (V : validate_body (JsonBody (JObj members)) = inr {| texts := ts |}).
  { apply well_shaped_valid. exists members. split; [reflexivity | exact G]. }
  rewrite (post_embed_valid _ _ w V).
  rewrite (post_embed_valid _ _ w (validate_request_body ts)). simpl.
  split; [reflexivity|]. split.
  - intros errs.
    destruct (snd (encode (model (globals w)) ts true)); discriminate.
  - intros a E. rewrite E. reflexivity.
Qed.

(** *** Sequences of requests, whatever the model does *)

(** X1. The calls made to the model while a sequence of requests is served
    are exactly one call per request that passes validation, in the order
    of the requests, each with the sentences of that request as they were
    sent and with normalisation requested; a refused request causes no
    call, an accepted one causes a call even when its list is empty or the
    model raises. *)
Theorem encode_calls_follow_accepted_requests (w : World) (requests : list Body) :
  trace (snd (serve w requests))
  = trace w ++ map (fun ts => EvEncode ts true) (accepted requests).
Proof.
  revert w. induction requests as [|b rest IH]; intros w.
  - simpl. symmetry. apply app_nil_r.
  - rewrite serve_cons. cbn [snd]. rewrite IH. cbn [accepted].
    destruct (validate_body b) as [errs | req] eqn:V.
    + rewrite (post_embed_invalid b errs w V). reflexivity.
    + rewrite (post_embed_valid b req w V). cbn [snd trace map].
      rewrite <- app_assoc. reflexivity.
Qed.

(** X3. When [encode] leaves the model object alone, the answers to a
    sequence of requests are the answers each request would get alone from
    the starting state: no request, failed or not, changes the answer to a
    later one. *)
Theorem requests_are_independent (w : World) (requests : list Body) :
  encode_readonly ->
  fst (serve w requests) = map (fun b => fst (post_embed b w)) requests.
Proof.
  intros RO. revert w. induction requests as [|b rest IH]; intros w.
  - reflexivity.
  - rewrite serve_cons. cbn [fst map]. f_equal. rewrite IH.
    apply map_ext. intros b'. apply post_embed_response_model.
    rewrite (post_embed_globals b w RO). reflexivity.
Qed.

(** X5. Validation accepts exactly the bodies that are an object binding
    [texts] to a list of strings, and the request it builds holds those
    strings unchanged: same length, same order, empty strings and repeated
    strings kept.  In particular the body a client builds from a list of
    strings is read back as that list. *)
Theorem validation_accepts_exactly_string_lists (b : Body) (ts : list string) :
  (validate_body b = inr {| texts := ts |} <-> well_shaped b ts) /\
  validate_body (request_body ts) = inr {| texts := ts |}.
Proof.
  split.
  - apply (validate_body_ok b {| texts := ts |}).
  - apply validate_request_body.
Qed.

End Service.

Arguments embed {model_obj exn} encode req _.
Arguments post_embed {model_obj exn} encode b w.
Arguments serve {model_obj exn} encode w requests.
Arguments main {model_obj exn} SentenceTransformer encode requests.
Arguments run_trace {model_obj} _.
Arguments run_responses {model_obj} _.
Arguments run_globals {model_obj} _.
Arguments Build_Run {model_obj} _ _ _.
Arguments encode_readonly {model_obj exn} encode.
Arguments encode_rowwise {model_obj exn} encode m f.
Arguments encode_normalized {model_obj exn} encode m tol.

(** ** The definitions on concrete requests *)

Example dict_get_last_wins :
  dict_get "texts" [("texts", JNull); ("texts", JArr [])] = Some (JArr []).
Proof. reflexivity. Qed.

Example validate_mixed :
  validate_body Sample.mixed =
  inl (RequestValidationError
         [{| err_type := "string_type";
             err_loc := [LocKey "body"; LocKey "texts"; LocIndex 1];
             err_input := JNum 1%Q |};
          {| err_type := "string_type";
             err_loc := [LocKey "body"; LocKey "texts"; LocIndex 3];
             err_input := JNull |}]).
Proof. reflexivity. Qed.

Example validate_extra :
  validate_body (JsonBody (JObj Sample.extra)) = inr {| texts := ["a"; "bb"] |}.
Proof. reflexivity. Qed.

Example unit_norm_3_4_5 : unit_norm 0 [3 # 5; 4 # 5]%Q.
Proof. split; vm_compute; discriminate. Qed.

Example sample_raw_not_unit : ~ unit_norm Sample.tol (Sample.raw "a").
Proof. intros [_ H]. vm_compute in H. apply H. reflexivity. Qed.

Example sample_encode_unnormalized :
  snd (Sample.encode tt ["a"] false) = inr [Sample.raw "a"].
Proof. reflexivity. Qed.

Example accepted_skips_refused :
  accepted [request_body ["a"]; Sample.mixed; NoBody; request_body [];
            JsonBody (JObj Sample.extra)]
  = [["a"]; []; ["a"; "bb"]].
Proof. reflexivity. Qed.

Example nonfinite_kept_bindings :
  nonfinite (JObj [("x", JNonFinite NaN); ("x", JNum 1%Q)]) = false /\
  nonfinite (JObj [("x", JNum 1%Q); ("y", JArr [JNonFinite NegInf])]) = true.
Proof. split; reflexivity. Qed.

Example post_embed_overflow :
  post_embed Sample.encode Sample.overflow Sample.world
  = (InternalServerError, Sample.world).
Proof. reflexivity. Qed.

Example post_embed_missing_key_overflow :
  post_embed Sample.encode (JsonBody (JObj [("x", JNonFinite PosInf)])) Sample.world
  = (InternalServerError, Sample.world).
Proof. reflexivity. Qed.

Example post_embed_extra_key_overflow :
  fst (post_embed Sample.encode
         (JsonBody (JObj [("texts", JArr [JStr "bb"]); ("x", JNonFinite PosInf)]))
         Sample.world)
  = Ok {| embeddings := [Sample.e1] |}.
Proof. reflexivity. Qed.

Example post_embed_unreadable :
  post_embed Sample.encode Unreadable Sample.world = (BadRequest, Sample.world).
Proof. reflexivity. Qed.

Example post_embed_two :
  post_embed Sample.encode (request_body ["a"; "bb"]) Sample.world =
  (Ok {| embeddings := [Sample.e2; Sample.e1] |},
   {| globals := globals Sample.world;
      trace := trace Sample.world ++ [EvEncode ["a"; "bb"] true] |}).
Proof. reflexivity. Qed.

Example post_embed_raises :
  post_embed Sample.encode_raises (request_body ["a"]) Sample.world =
  (InternalServerError,
   {| globals := globals Sample.world;
      trace := trace Sample.world ++ [EvEncode ["a"] true] |}).
Proof. reflexivity. Qed.

Example main_load_fails :
  main Sample.load_fails Sample.encode [request_body ["a"]; Sample.not_a_list] =
  {| run_trace := [EvLoad model_name]; run_responses := []; run_globals := None |}.
Proof. reflexivity. Qed.

Example main_three_requests :
  main Sample.load Sample.encode
       [request_body []; Sample.not_a_list; request_body ["bb"]] =
  {| run_trace := [EvLoad model_name; EvListen "0.0.0.0" 8001;
                   EvEncode [] true; EvEncode ["bb"] true];
     run_responses :=
       [Ok {| embeddings := [] |};
        UnprocessableEntity
          [{| err_type := "list_type";
              err_loc := [LocKey "body"; LocKey "texts"];
              err_input := JStr "not a list" |}];
        Ok {| embeddings := [Sample.e1] |}];
     run_globals := Some (globals Sample.world) |}.
Proof. reflexivity. Qed.

(** ** The sample model keeps the contract *)

Lemma sample_readonly : encode_readonly Sample.encode.
Proof. intros m ts b. reflexivity. Qed.

Lemma sample_raises_readonly : encode_readonly Sample.encode_raises.
Proof. intros m ts b. reflexivity. Qed.

Lemma sample_rowwise : encode_rowwise Sample.encode tt Sample.vec.
Proof. intros ts. reflexivity. Qed.

Lemma sample_dim (s : string) : List.length (Sample.vec s) = 384.
Proof. unfold Sample.vec. destruct (Nat.even _); vm_compute; reflexivity. Qed.

Lemma sample_unit (s : string) : unit_norm Sample.tol (Sample.vec s).
Proof.
  unfold Sample.vec.
  destruct (Nat.even _); split; vm_compute; discriminate.
Qed.

Lemma sample_normalized : encode_normalized Sample.encode tt Sample.tol.
Proof.
  intros ts a H. inversion H; subst. clear H.
  induction ts as [|t ts IH]; constructor; [apply sample_unit | exact IH].
Qed.


(** ** The theorems at the sample model *)

Lemma embed_length_and_order_witness :
  well_shaped (JsonBody (JObj Sample.extra)) ["a"; "bb"] /\
  exists es,
    fst (post_embed Sample.encode (JsonBody (JObj Sample.extra)) Sample.world)
      = Ok {| embeddings := es |} /\
    List.length es = List.length ["a"; "bb"] /\
    (forall i, nth_error es i = option_map Sample.vec (nth_error ["a"; "bb"] i)) /\
    (["a"; "bb"] = [] -> es = []).
Proof.
  assert (S : well_shaped (JsonBody (JObj Sample.extra)) ["a"; "bb"]).
  { exists Sample.extra. split; reflexivity. }
  split; [exact S|].
  exact (embed_length_and_order unit string Sample.encode Sample.vec Sample.world
           (JsonBody (JObj Sample.extra)) ["a"; "bb"] sample_rowwise S).
Defined.

Lemma embed_unit_norm_witness :
  Forall (unit_norm Sample.tol) [Sample.e2; Sample.e1].
Proof.
  apply (embed_unit_norm unit string Sample.encode Sample.tol Sample.world
           (request_body ["a"; "bb"])).
  - exact sample_normalized.
  - reflexivity.
Defined.

Lemma embed_itemwise_witness :
  exists es v,
    embeddings_of (fst (post_embed Sample.encode (request_body ["a"; "bb"]) Sample.world))
      = Some es /\
    embeddings_of (fst (post_embed Sample.encode (request_body ["bb"]) Sample.world))
      = Some [v] /\
    nth_error es 1 = Some v.
Proof.
  apply (proj1 (embed_itemwise unit string Sample.encode Sample.vec Sample.world
                  sample_rowwise)
               ["a"; "bb"] 1 "bb").
  reflexivity.
Defined.




Lemma embed_deterministic_witness :
  fst (post_embed Sample.encode (request_body ["hello"])
         (snd (serve Sample.encode
                 (snd (post_embed Sample.encode (request_body ["hello"]) Sample.world))
                 [request_body ["x"]; Sample.mixed])))
  = fst (post_embed Sample.encode (request_body ["hello"]) Sample.world) /\
  exists r,
    fst (serve Sample.encode Sample.world
           [request_body ["hello"]; request_body ["hello"]]) = [r; r].
Proof.
  exact (embed_deterministic unit string Sample.encode "hello" Sample.world
           [request_body ["x"]; Sample.mixed] sample_readonly).
Defined.

Lemma model_failure_all_or_nothing_witness :
  fst (post_embed Sample.encode_raises (request_body ["a"; "bb"]) Sample.world)
    = InternalServerError /\
  is_5xx (fst (post_embed Sample.encode_raises (request_body ["a"; "bb"]) Sample.world))
    = true /\
  embeddings_of
    (fst (post_embed Sample.encode_raises (request_body ["a"; "bb"]) Sample.world))
    = None.
Proof.
  apply (proj1 (model_failure_all_or_nothing unit string Sample.encode_raises
                  (request_body ["a"; "bb"]) Sample.world sample_raises_readonly)
               {| texts := ["a"; "bb"] |} "RuntimeError").
  - reflexivity.
  - reflexivity.
Defined.

Lemma embed_fixed_dimension_witness :
  (exists v,
     run_responses (main Sample.load Sample.encode [request_body ["hello world"]])
       = [Ok {| embeddings := [v] |}] /\
     List.length v = 384 /\ unit_norm Sample.tol v) /\
  (forall requests r es v,
     In r (run_responses (main Sample.load Sample.encode requests)) ->
     embeddings_of r = Some es -> In v es -> List.length v = 384).
Proof.
  apply (embed_fixed_dimension unit string Sample.load Sample.encode
           Sample.vec Sample.tol tt).
  - reflexivity.
  - exact sample_readonly.
  - exact sample_rowwise.
  - exact sample_dim.
  - exact sample_unit.
Defined.

Lemma embed_no_side_effects_witness :
  globals (snd (post_embed Sample.encode (request_body ["a"]) Sample.world))
    = globals Sample.world /\
  (trace (snd (post_embed Sample.encode (request_body ["a"]) Sample.world))
     = trace Sample.world \/
   exists ts,
     trace (snd (post_embed Sample.encode (request_body ["a"]) Sample.world))
       = trace Sample.world ++ [EvEncode ts true]) /\
  globals (snd (serve Sample.encode Sample.world [Sample.mixed; request_body ["a"]]))
    = globals Sample.world.
Proof.
  exact (embed_no_side_effects unit string Sample.encode (request_body ["a"])
           Sample.world [Sample.mixed; request_body ["a"]] sample_readonly).
Defined.

Lemma extra_keys_ignored_witness :
  post_embed Sample.encode (JsonBody (JObj Sample.extra)) Sample.world
    = post_embed Sample.encode (request_body ["a"; "bb"]) Sample.world /\
  (forall errs,
     fst (post_embed Sample.encode (JsonBody (JObj Sample.extra)) Sample.world)
       <> UnprocessableEntity errs) /\
  (forall a, snd (Sample.encode (model (globals Sample.world)) ["a"; "bb"] true) = inr a ->
     fst (post_embed Sample.encode (JsonBody (JObj Sample.extra)) Sample.world)
       = Ok {| embeddings := a |}).
Proof.
  apply (extra_keys_ignored unit string Sample.encode Sample.extra ["a"; "bb"]
           Sample.world).
  reflexivity.
Defined.

Lemma requests_are_independent_witness :
  fst (serve Sample.encode Sample.world
         [request_body ["a"]; Sample.mixed; request_body ["a"; "bb"]])
  = map (fun b => fst (post_embed Sample.encode b Sample.world))
        [request_body ["a"]; Sample.mixed; request_body ["a"; "bb"]].
Proof.
  exact (requests_are_independent unit string Sample.encode Sample.world
           [request_body ["a"]; Sample.mixed; request_body ["a"; "bb"]]
           sample_readonly).
Defined.
